(** * The package build descriptor of space-agriculture-rl

    The repository consists of one file, [setup.py]: an import of two names
    from setuptools followed by a single call [setup(...)] whose keyword
    arguments are literals, except [packages], which is the result of
    [find_packages()].

    The script is embedded as a computation in a small state-and-exception
    monad over the module's global namespace and a log of the calls made
    to setuptools.  setuptools itself is not part of the repository: its
    [find_packages] is an argument of the development. *)

From Stdlib Require Import Ascii NArith.
From stdpp Require Import base strings list gmap.

Open Scope string_scope.

(** ** Values and objects *)

(** The Python values that occur as arguments or results in the script. *)
Inductive value :=
| VNone
| VStr (s : string)
| VBool (b : bool)
| VList (l : list string).

Global Instance value_eq_dec : EqDecision value.
Proof. solve_decision. Defined.

(** The two setuptools functions the script imports. *)
Inductive builtin := Setup | FindPackages.

Global Instance builtin_eq_dec : EqDecision builtin.
Proof. solve_decision. Defined.

(** What a global name of the module can be bound to: an attribute fetched
    from an imported module, or an object the module creates itself (by an
    assignment, a [def] or a [class]). *)
Inductive pyobj :=
| Imported (module : string) (f : builtin)
| Local (v : value).

Global Instance pyobj_eq_dec : EqDecision pyobj.
Proof. solve_decision. Defined.

(** ** The working directory *)

#[warnings="-register-all"]
Inductive node :=
| File (name : string)
| Dir (name : string) (children : list node).

(** The files of the repository. *)
Definition repository : list node := [File "setup.py"].

(** ** The environment of an evaluation *)

(** [find_packages] of the installed setuptools, as a function of the
    directory it scans, and the directory the script is run in. *)
Record env := Env {
  find_packages : list node → list string;
  cwd : list node
}.

(** ** Interpreter state, exceptions, and the monad *)

Inductive event :=
| Call (f : builtin) (kwargs : gmap string value).

Record state := State {
  globals : gmap string pyobj;
  trace : list event
}.

Definition initial : state := State ∅ [].

Inductive exn :=
| ImportError (module name : string)
| NameError (name : string)
| TypeError (what : string)
| SystemExit (status : nat).

Inductive outcome (A : Type) :=
| Returned (a : A) (s : state)
| Raised (e : exn).
Arguments Returned {A} a s.
Arguments Raised {A} e.

Definition M (A : Type) : Type := state → outcome A.

Definition ret {A} (a : A) : M A := fun s => Returned a s.

Definition bind {A B} (m : M A) (k : A → M B) : M B :=
  fun s => match m s with
           | Returned a s' => k a s'
           | Raised e => Raised e
           end.

Definition raise {A} (e : exn) : M A := fun _ => Raised e.

Global Instance M_ret : MRet M := @ret.
Global Instance M_bind : MBind M := fun A B k m => bind m k.

(** ** Statements and expressions of the module level *)

(** The attributes of setuptools used by the script. *)
Definition setuptools_attr (name : string) : option builtin :=
  if decide (name = "setup") then Some Setup
  else if decide (name = "find_packages") then Some FindPackages
  else None.

Definition module_attr (module name : string) : option builtin :=
  if decide (module = "setuptools") then setuptools_attr name else None.

(** [from module import name]. *)
Definition import_name (module name : string) : M unit :=
  fun s => match module_attr module name with
           | Some f => Returned tt (State (<[name := Imported module f]> (globals s)) (trace s))
           | None => Raised (ImportError module name)
           end.

(** [from module import n1, n2, ...]. *)
Fixpoint import_from (module : string) (names : list string) : M unit :=
  match names with
  | [] => mret tt
  | n :: ns => import_name module n ;; import_from module ns
  end.

(** [name = v] at module level. *)
Definition store_name (name : string) (v : value) : M unit :=
  fun s => Returned tt (State (<[name := Local v]> (globals s)) (trace s)).

(** Reading a global name. *)
Definition load_name (name : string) : M pyobj :=
  fun s => match globals s !! name with
           | Some o => Returned o s
           | None => Raised (NameError name)
           end.

Definition log (e : event) : M unit :=
  fun s => Returned tt (State (globals s) (trace s ++ [e])%list).

(** The keyword arguments of the [setup] call, in source order. *)
Definition setup_kwargs (packages : value) : list (string * value) :=
  [ ("name", VStr "space-agriculture-rl");
    ("version", VStr "0.1.0");
    ("packages", packages);
    ("include_package_data", VBool true);
    ("install_requires", VList
       [ "streamlit>=1.31.0";
         "pandas>=2.1.1";
         "numpy>=1.26.1";
         "matplotlib>=3.8.1";
         "tensorflow>=2.15.0";
         "kaggle>=1.5.16";
         "Pillow>=10.1.0" ]);
    ("author", VStr "Your Name");
    ("author_email", VStr "your.email@example.com");
    ("description", VStr "Space Agriculture Reinforcement Learning System");
    ("keywords", VStr "space, agriculture, reinforcement learning, AI");
    ("url", VStr "https://github.com/yourusername/space-agriculture-rl");
    ("classifiers", VList
       [ "Development Status :: 3 - Alpha";
         "Intended Audience :: Science/Research";
         "Programming Language :: Python :: 3";
         "Topic :: Scientific/Engineering :: Artificial Intelligence" ]) ].

Definition type_name (v : value) : string :=
  match v with
  | VNone => "NoneType"
  | VStr _ => "str"
  | VBool _ => "bool"
  | VList _ => "list"
  end.

Section Script.
Context (E : env).

(** Calling an object with keyword arguments only.  The two setuptools
    functions are taken to return here; how the call of [setup] ends on a
    command line is the matter of [run] below. *)
Definition call (o : pyobj) (kwargs : gmap string value) : M value :=
  match o with
  | Imported _ FindPackages =>
      log (Call FindPackages kwargs) ;; mret (VList (find_packages E (cwd E)))
  | Imported _ Setup =>
      log (Call Setup kwargs) ;; mret VNone
  | Local v => raise (TypeError ("'" +:+ type_name v +:+ "' object is not callable"))
  end.

(** setup.py, statement by statement.  Python evaluates the callee of
    the outer call first, then its arguments from left to right. *)
Definition setup_py : M unit :=
  import_from "setuptools" ["setup"; "find_packages"] ;;
  f ← load_name "setup" ;
  g ← load_name "find_packages" ;
  packages ← call g ∅ ;
  call f (list_to_map (setup_kwargs packages)) ;;
  mret tt.

(** Evaluating the script as a fresh module. *)
Definition evaluate : outcome unit := setup_py initial.
End Script.

(** ** A run from the command line *)

(** What setuptools' [setup] does with its arguments is decided by the
    command line of the process, [sys.argv]: the script name followed by
    the commands to run.  [commands_end] is how running the commands
    ends, [None] for a return and [Some e] for the exception [e]; it is
    the environment's, as the commands are setuptools code. *)
Record command_line := CommandLine {
  argv : list string;
  commands_end : option exn
}.

(** With no command after the script name [setup] stops the process with
    "error: no commands supplied", exit status 1. *)
Definition setup_ends (c : command_line) : option exn :=
  match argv c with
  | [] | [_] => Some (SystemExit 1)
  | _ :: _ :: _ => commands_end c
  end.

Section Run.
Context (E : env) (c : command_line).

(** A call whose callee may raise: [setup] ends as the command line has
    it, after it has received its arguments. *)
Definition call_run (o : pyobj) (kwargs : gmap string value) : M value :=
  v ← call E o kwargs ;
  match o with
  | Imported _ Setup =>
      match setup_ends c with
      | Some e => raise e
      | None => mret v
      end
  | _ => mret v
  end.

(** setup.py again, with calls that may raise. *)
Definition run_setup_py : M unit :=
  import_from "setuptools" ["setup"; "find_packages"] ;;
  f ← load_name "setup" ;
  g ← load_name "find_packages" ;
  packages ← call_run g ∅ ;
  call_run f (list_to_map (setup_kwargs packages)) ;;
  mret tt.

Definition run : outcome unit := run_setup_py initial.
End Run.

(** ** What an evaluation declares *)

(** The keyword arguments of the calls to [setup] made so far. *)
Definition setup_calls (s : state) : list (gmap string value) :=
  omap (fun e => match e with
                 | Call Setup kw => Some kw
                 | Call FindPackages _ => None
                 end) (trace s).

(** The descriptor handed to setuptools by an evaluation of the script:
    the keyword arguments of its call to [setup], when it made exactly one
    and returned. *)
Definition declared (E : env) : option (gmap string value) :=
  match evaluate E with
  | Returned _ s => match setup_calls s with
                    | [kw] => Some kw
                    | _ => None
                    end
  | Raised _ => None
  end.

Definition str_field (kw : gmap string value) (k : string) : option string :=
  match kw !! k with
  | Some (VStr s) => Some s
  | _ => None
  end.

Definition list_field (kw : gmap string value) (k : string) : option (list string) :=
  match kw !! k with
  | Some (VList l) => Some l
  | _ => None
  end.

(** The global namespace of the module once the import has run. *)
Definition final_globals : gmap string pyobj :=
  <["find_packages" := Imported "setuptools" FindPackages]>
    (<["setup" := Imported "setuptools" Setup]> ∅).

Definition is_local (o : pyobj) : bool :=
  match o with
  | Local _ => true
  | Imported _ _ => false
  end.

(** Names bound in the module by the module itself, not by an import. *)
Definition defined_names (s : state) : gset string :=
  dom (filter (fun kv => is_local kv.2 = true) (globals s)).

(** The modules a build of the descriptor installs: those of the listed
    packages and the listed top-level modules. *)
Definition installed_modules (kw : gmap string value) : list string :=
  (default [] (list_field kw "packages") ++ default [] (list_field kw "py_modules"))%list.

(** ** Strings *)

Module Str.

Fixpoint starts_with (p s : string) : bool :=
  match p, s with
  | EmptyString, _ => true
  | String _ _, EmptyString => false
  | String a p', String b s' => if decide (a = b) then starts_with p' s' else false
  end.

(** Number of positions of [s] at which [sub] occurs. *)
Fixpoint count_sub (sub s : string) : nat :=
  (if starts_with sub s then 1 else 0) +
  match s with
  | EmptyString => 0
  | String _ s' => count_sub sub s'
  end.

(** [c] does not occur in [w]. *)
Definition free_of (c : ascii) (w : string) : Prop :=
  count_sub (String c EmptyString) w = 0.

(** The part of [s] before the first occurrence of [sep]; all of [s]
    when there is none. *)
Fixpoint before (sep s : string) : string :=
  if starts_with sep s then EmptyString
  else match s with
       | EmptyString => EmptyString
       | String c s' => String c (before sep s')
       end.

(** [s.split(c)]. *)
Fixpoint split_on (c : ascii) (s : string) : list string :=
  match s with
  | EmptyString => [EmptyString]
  | String a s' =>
      if decide (a = c) then EmptyString :: split_on c s'
      else match split_on c s' with
           | w :: ws => String a w :: ws
           | [] => [String a EmptyString]
           end
  end.

(** [c.join(l)]. *)
Fixpoint join (c : ascii) (l : list string) : string :=
  match l with
  | [] => EmptyString
  | [w] => w
  | w :: ws => w +:+ String c (join c ws)
  end.

(** The longest prefix of [s] made of characters satisfying [p], and
    the rest. *)
Fixpoint span (p : ascii → bool) (s : string) : string * string :=
  match s with
  | EmptyString => (EmptyString, EmptyString)
  | String c s' =>
      if p c then let '(a, b) := span p s' in (String c a, b)
      else (EmptyString, s)
  end.

Fixpoint all (p : ascii → bool) (s : string) : bool :=
  match s with
  | EmptyString => true
  | String c s' => p c && all p s'
  end.

Definition between (lo hi : string) (c : ascii) : bool :=
  match lo, hi with
  | String l EmptyString, String h EmptyString =>
      ((N_of_ascii l <=? N_of_ascii c) && (N_of_ascii c <=? N_of_ascii h))%N
  | _, _ => false
  end.

Definition is_digit (c : ascii) : bool := between "0" "9" c.

Definition is_alnum (c : ascii) : bool :=
  is_digit c || between "a" "z" c || between "A" "Z" c.

End Str.

(** ** Version strings *)

Module Semver.

Definition digit (c : ascii) : option N :=
  if Str.is_digit c then Some (N_of_ascii c - 48)%N else None.

Fixpoint digits (acc : N) (s : string) : option N :=
  match s with
  | EmptyString => Some acc
  | String c s' => d ← digit c; digits (10 * acc + d)%N s'
  end.

(** A numeric identifier: a non-empty run of digits without a leading
    zero, unless it is the single digit 0. *)
Definition numeric (s : string) : option N :=
  match s with
  | EmptyString => None
  | String c EmptyString => digit c
  | String c _ => if decide (c = "0"%char) then None else digits 0 s
  end.

(** MAJOR.MINOR.PATCH *)
Definition parse (s : string) : option (N * N * N) :=
  match Str.split_on "." s with
  | [a; b; c] => x ← numeric a; y ← numeric b; z ← numeric c; Some (x, y, z)
  | _ => None
  end.

End Semver.

(** ** Requirement strings *)

Module Requirement.

Inductive operator :=
| Compatible   (* ~= *)
| Equal        (* == *)
| NotEqual     (* != *)
| AtMost       (* <= *)
| AtLeast      (* >= *)
| Below        (* <  *)
| Above        (* >  *)
| Identical.   (* === *)

Global Instance operator_eq_dec : EqDecision operator.
Proof. solve_decision. Defined.

(** The operators by spelling, longest first. *)
Definition spellings : list (string * operator) :=
  [ ("===", Identical); ("~=", Compatible); ("==", Equal); ("!=", NotEqual);
    ("<=", AtMost); (">=", AtLeast); ("<", Below); (">", Above) ].

Fixpoint drop (n : nat) (s : string) : string :=
  match n, s with
  | S n', String _ s' => drop n' s'
  | _, _ => s
  end.

Fixpoint read_operator (ops : list (string * operator)) (s : string)
  : option (operator * string) :=
  match ops with
  | [] => None
  | (sp, op) :: ops' =>
      if Str.starts_with sp s then Some (op, drop (String.length sp) s)
      else read_operator ops' s
  end.

Definition is_name_char (c : ascii) : bool :=
  Str.is_alnum c || bool_decide (c = "-"%char) || bool_decide (c = "_"%char)
  || bool_decide (c = "."%char).

Definition is_version_char (c : ascii) : bool :=
  Str.is_alnum c || bool_decide (c = "."%char) || bool_decide (c = "*"%char)
  || bool_decide (c = "+"%char) || bool_decide (c = "!"%char)
  || bool_decide (c = "-"%char) || bool_decide (c = "_"%char).

(** One version clause: an operator followed by a version. *)
Definition clause (s : string) : option (operator * string) :=
  '(op, v) ← read_operator spellings s;
  if negb (bool_decide (v = EmptyString)) && Str.all is_version_char v
  then Some (op, v) else None.

Record t := Req { project : string; clauses : list (operator * string) }.

Global Instance t_eq_dec : EqDecision t.
Proof. solve_decision. Defined.

(** A project name followed by comma-separated version clauses, without
    blanks.  Only the shape is checked: a version is any non-empty run of
    version characters. *)
Definition parse (s : string) : option t :=
  let '(name, rest) := Str.span is_name_char s in
  if bool_decide (name = EmptyString) then None
  else if bool_decide (rest = EmptyString) then Some (Req name [])
  else cs ← mapM clause (Str.split_on "," rest); Some (Req name cs).

(** The requirement bounds the version from below. *)
Definition has_minimum (r : t) : bool :=
  bool_decide (Exists (fun c => c.1 = AtLeast) (clauses r)).

(** The requirement is a single [>=] clause. *)
Definition minimum_only (r : t) : bool :=
  match clauses r with
  | [(AtLeast, _)] => true
  | _ => false
  end.

End Requirement.

(** ** Classifiers *)

(** The top-level category of a trove classifier. *)
Definition category (classifier : string) : string := Str.before " :: " classifier.

(** ** Packages in a directory tree *)

Module Tree.

Definition has_file (name : string) (ns : list node) : bool :=
  existsb (fun n => match n with
                    | File f => bool_decide (f = name)
                    | Dir _ _ => false
                    end) ns.

(** A directory is a package when it holds an [__init__.py]. *)
Definition looks_like_package (children : list node) : bool :=
  has_file "__init__.py" children.

(** Is there a package directory at the given path below [ns]? *)
Fixpoint is_package (path : list string) (ns : list node) : bool :=
  match path with
  | [] => false
  | d :: rest =>
      existsb (fun n => match n with
                        | File _ => false
                        | Dir d' ch =>
                            bool_decide (d' = d) &&
                            match rest with
                            | [] => looks_like_package ch
                            | _ :: _ => is_package rest ch
                            end
                        end) ns
  end.

(** Does any directory of the tree, at any depth, hold an [__init__.py]? *)
Fixpoint holds_package (n : node) : bool :=
  match n with
  | File _ => false
  | Dir _ ch => looks_like_package ch || existsb holds_package ch
  end.

(** What setuptools documents of [find_packages]: each name it returns
    is the dotted path of a package directory. *)
Definition finds_only_packages (fp : list node → list string) : Prop :=
  ∀ fs p, p ∈ fp fs → is_package (Str.split_on "." p) fs = true.

(** The directory walk of setuptools' finder: a directory is reported,
    and searched further, when its name has no dot and it holds an
    [__init__.py].  The packages are those of the finder; they are
    listed parent first, each directory followed by what lies below it,
    where the finder lists the packages of a directory before it
    descends. *)
Fixpoint walk (parents : list string) (n : node) : list (list string) :=
  match n with
  | File _ => []
  | Dir d ch =>
      if negb (bool_decide (Str.count_sub "." d = 0)) || negb (looks_like_package ch)
      then []
      else (parents ++ [d])%list :: flat_map (walk (parents ++ [d])%list) ch
  end.

Definition find (fs : list node) : list string :=
  Str.join "." <$> flat_map (walk []) fs.

End Tree.

(** * Properties *)

(** ** The monad *)

Lemma bind_returned {A B} (m : M A) (k : A → M B) s a s' :
  m s = Returned a s' → (m ≫= k) s = k a s'.
Proof. intros Hm. unfold mbind, M_bind, bind. by rewrite Hm. Qed.

Lemma bind_raised {A B} (m : M A) (k : A → M B) s e :
  m s = Raised e → (m ≫= k) s = Raised e.
Proof. intros Hm. unfold mbind, M_bind, bind. by rewrite Hm. Qed.

Lemma import_name_returned module name f s :
  module_attr module name = Some f →
  import_name module name s
  = Returned tt (State (<[name := Imported module f]> (globals s)) (trace s)).
Proof. intros Hf. unfold import_name. by rewrite Hf. Qed.

(** An import leaves the call log alone and binds no name to an object
    of the module's own. *)
Lemma import_from_keeps module names : ∀ s s',
  import_from module names s = Returned tt s' →
  trace s' = trace s ∧ defined_names s' ⊆ defined_names s.
Proof.
  induction names as [|n ns IH]; intros s s' Hrun; simpl in Hrun.
  - inversion Hrun; subst. done.
  - destruct (module_attr module n) as [f|] eqn:Hf.
    + rewrite (bind_returned _ _ _ _ _ (import_name_returned _ _ _ s Hf)) in Hrun.
      apply IH in Hrun as [Htr Hdef]. simpl in *. split; [done|].
      etrans; [exact Hdef|]. unfold defined_names; simpl.
      intros x. rewrite !elem_of_dom. intros [o Ho].
      apply map_lookup_filter_Some in Ho as [Ho Hloc]; simpl in Hloc.
      destruct (decide (n = x)) as [->|Hne].
      * rewrite lookup_insert_eq in Ho. by simplify_eq.
      * rewrite lookup_insert_ne in Ho by done.
        exists o. by apply map_lookup_filter_Some.
    + rewrite (bind_raised _ _ s (ImportError module n)) in Hrun; [done|].
      unfold import_name. by rewrite Hf.
Qed.

(** A name that was never bound cannot be read. *)
Lemma load_name_unbound name s :
  globals s !! name = None → load_name name s = Raised (NameError name).
Proof. intros Hn. unfold load_name. by rewrite Hn. Qed.

Lemma load_name_stored name v s s' :
  store_name name v s = Returned tt s' → load_name name s' = Returned (Local v) s'.
Proof.
  unfold store_name, load_name. intros [= <-]. simpl.
  by rewrite lookup_insert_eq.
Qed.

(** ** One evaluation of setup.py *)

Lemma evaluate_eq (E : env) :
  evaluate E
  = Returned tt
      (State final_globals
         [ Call FindPackages ∅;
           Call Setup (list_to_map (setup_kwargs (VList (find_packages E (cwd E))))) ]).
Proof. reflexivity. Qed.

Lemma declared_eq (E : env) :
  declared E = Some (list_to_map (setup_kwargs (VList (find_packages E (cwd E))))).
Proof. reflexivity. Qed.

Lemma final_globals_lookup x o :
  final_globals !! x = Some o →
  (x = "setup" ∧ o = Imported "setuptools" Setup)
  ∨ (x = "find_packages" ∧ o = Imported "setuptools" FindPackages).
Proof.
  unfold final_globals. intros Hx.
  destruct (decide (x = "find_packages")) as [->|Hfp].
  - rewrite lookup_insert_eq in Hx. right. by simplify_eq.
  - rewrite lookup_insert_ne in Hx by done.
    destruct (decide (x = "setup")) as [->|Hs].
    + rewrite lookup_insert_eq in Hx. left. by simplify_eq.
    + rewrite lookup_insert_ne in Hx by done. by rewrite lookup_empty in Hx.
Qed.

Lemma final_globals_defines_nothing s :
  globals s = final_globals → defined_names s = ∅.
Proof.
  intros Hg. unfold defined_names. rewrite Hg.
  apply dom_empty_iff_L, map_empty. intros x.
  apply map_lookup_filter_None. right. intros o Hx Hloc; simpl in Hloc.
  by destruct (final_globals_lookup _ _ Hx) as [[_ ->]|[_ ->]].
Qed.

(** Every keyword argument but [packages] is a literal. *)
Lemma setup_kwargs_literals (p q : value) :
  delete "packages" (list_to_map (setup_kwargs p) : gmap string value)
  = delete "packages" (list_to_map (setup_kwargs q)).
Proof.
  unfold setup_kwargs; simpl.
  rewrite !(delete_insert_ne _ "packages") by done.
  by rewrite !delete_insert_eq.
Qed.

(** ** Strings *)

Lemma starts_with_app p r : Str.starts_with p (p +:+ r) = true.
Proof.
  induction p as [|a p IH]; simpl; [done|].
  by rewrite decide_True.
Qed.

Lemma starts_with_inv p : ∀ s, Str.starts_with p s = true → ∃ r, s = p +:+ r.
Proof.
  induction p as [|a p IH]; intros s Hs; simpl in *.
  - by exists s.
  - destruct s as [|b s]; [done|].
    destruct (decide (a = b)) as [->|]; [|done].
    destruct (IH _ Hs) as [r ->]. by exists r.
Qed.

Lemma count_sub_unfold sub s :
  Str.count_sub sub s
  = (if Str.starts_with sub s then 1 else 0) +
    match s with
    | EmptyString => 0
    | String _ s' => Str.count_sub sub s'
    end.
Proof. by destruct s. Qed.

(** An occurrence anywhere in the string is counted. *)
Lemma count_sub_occurrence sub b : ∀ a, 0 < Str.count_sub sub (a +:+ sub +:+ b).
Proof.
  induction a as [|c a IH].
  - change (EmptyString +:+ sub +:+ b) with (sub +:+ b).
    rewrite count_sub_unfold, starts_with_app. lia.
  - change (String c a +:+ sub +:+ b) with (String c (a +:+ sub +:+ b)).
    rewrite count_sub_unfold. lia.
Qed.

Lemma count_sub_none sub s a b :
  Str.count_sub sub s = 0 → s ≠ a +:+ sub +:+ b.
Proof.
  intros H0 ->. pose proof (count_sub_occurrence sub b a). lia.
Qed.

Lemma free_of_cons c a w : Str.free_of c (String a w) ↔ a ≠ c ∧ Str.free_of c w.
Proof.
  unfold Str.free_of; simpl.
  destruct (decide (c = a)) as [->|Hne].
  - split; [lia|]. by intros [? _].
  - split; [intros ?; split; [congruence|lia]|]. intros [_ ?]. lia.
Qed.

Lemma split_on_not_nil c s : Str.split_on c s ≠ [].
Proof.
  destruct s as [|a s]; simpl; [done|].
  destruct (decide (a = c)); [done|].
  by destruct (Str.split_on c s).
Qed.

(** Splitting loses nothing: joining the pieces gives the string back. *)
Lemma join_split_on c s : Str.join c (Str.split_on c s) = s.
Proof.
  induction s as [|a s IH]; simpl; [done|].
  destruct (decide (a = c)) as [->|Hne].
  - pose proof (split_on_not_nil c s) as Hnil.
    destruct (Str.split_on c s) as [|w ws] eqn:Hsp; [done|].
    simpl in *. by rewrite IH.
  - pose proof (split_on_not_nil c s) as Hnil.
    destruct (Str.split_on c s) as [|w ws] eqn:Hsp; [done|].
    destruct ws as [|w' ws]; simpl in *; by rewrite <- IH.
Qed.

Lemma split_on_free c w : Str.free_of c w → Str.split_on c w = [w].
Proof.
  induction w as [|a w IH]; simpl; [done|].
  intros [Hne Hw]%free_of_cons.
  rewrite decide_False by done. by rewrite (IH Hw).
Qed.

Lemma split_on_app c w s :
  Str.free_of c w → Str.split_on c (w +:+ String c s) = w :: Str.split_on c s.
Proof.
  induction w as [|a w IH]; simpl.
  - intros _. by rewrite decide_True.
  - intros [Hne Hw]%free_of_cons.
    rewrite decide_False by done. by rewrite (IH Hw).
Qed.

(** Joining pieces that are free of the separator and splitting again
    gives the pieces back. *)
Lemma split_on_join c ws :
  ws ≠ [] → Forall (Str.free_of c) ws → Str.split_on c (Str.join c ws) = ws.
Proof.
  induction ws as [|w ws IH]; [done|].
  intros _ Hfree. apply Forall_cons in Hfree as [Hw Hws].
  destruct ws as [|w' ws].
  - simpl. by apply split_on_free.
  - change (Str.join c (w :: w' :: ws)) with (w +:+ String c (Str.join c (w' :: ws))).
    rewrite split_on_app by done. by rewrite IH.
Qed.

(** ** Directory trees *)

(** Induction on a tree, with the hypothesis for every child. *)
Lemma node_ind_children (P : node → Prop)
  (Hfile : ∀ f, P (File f))
  (Hdir : ∀ d ch, Forall P ch → P (Dir d ch)) :
  ∀ n, P n.
Proof.
  fix IH 1. intros [f|d ch].
  - apply Hfile.
  - apply Hdir. induction ch as [|c ch IHch]; constructor; [apply IH|apply IHch].
Qed.

(** A package directory below one of the nodes is one below all of them. *)
Lemma is_package_weaken path n fs :
  n ∈ fs → Tree.is_package path [n] = true → Tree.is_package path fs = true.
Proof.
  intros Hin%list_elem_of_In. destruct path as [|d rest]; simpl; [done|].
  rewrite orb_false_r. intros Hn.
  apply existsb_exists. by exists n.
Qed.

(** A tree with a package directory at some path holds an [__init__.py]. *)
Lemma is_package_holds path : ∀ fs,
  Tree.is_package path fs = true → existsb Tree.holds_package fs = true.
Proof.
  induction path as [|d rest IH]; intros fs; simpl; [done|].
  rewrite !existsb_exists. intros ([f|d' ch] & Hin & Hn); [done|].
  apply andb_prop in Hn as [_ Hn].
  exists (Dir d' ch). split; [done|]. simpl.
  destruct rest as [|d2 rest].
  - by rewrite Hn.
  - rewrite (IH _ Hn). apply orb_true_r.
Qed.

(** Each path reported by the walk extends the parents by the path of a
    package directory whose components have no dot. *)
Lemma walk_sound : ∀ n parents path,
  path ∈ Tree.walk parents n →
  ∃ rest, path = (parents ++ rest)%list ∧ rest ≠ [] ∧
          Forall (Str.free_of ".") rest ∧ Tree.is_package rest [n] = true.
Proof.
  induction n as [f|d ch IH] using node_ind_children; intros parents path; simpl.
  - by intros ?%elem_of_nil.
  - destruct (bool_decide (Str.count_sub "." d = 0)) eqn:Hdot; simpl;
      [|by intros ?%elem_of_nil].
    destruct (Tree.looks_like_package ch) eqn:Hinit; simpl;
      [|by intros ?%elem_of_nil].
    apply bool_decide_eq_true in Hdot.
    intros [->|Hsub]%elem_of_cons.
    + exists [d]. repeat split; [done|by repeat constructor|].
      simpl. by rewrite bool_decide_true, Hinit.
    + apply list_elem_of_In, in_flat_map in Hsub as (c & Hc & Hpath).
      apply list_elem_of_In in Hc, Hpath.
      rewrite Forall_forall in IH.
      destruct (IH c Hc _ _ Hpath) as (rest & -> & Hne & Hfree & Hpkg).
      exists (d :: rest). repeat split.
      * by rewrite <- app_assoc.
      * done.
      * by constructor.
      * simpl. rewrite bool_decide_true, orb_false_r by done. simpl.
        destruct rest as [|d2 rest]; [done|].
        by apply (is_package_weaken _ c).
Qed.

(** The walk meets what setuptools documents. *)
Lemma find_finds_only_packages : Tree.finds_only_packages Tree.find.
Proof.
  intros fs p. unfold Tree.find.
  intros (path & -> & Hpath)%list_elem_of_fmap.
  apply list_elem_of_In, in_flat_map in Hpath as (n & Hn & Hpath).
  apply list_elem_of_In in Hn, Hpath.
  destruct (walk_sound _ _ _ Hpath) as (rest & Heq & Hne & Hfree & Hpkg).
  simpl in Heq; subst rest.
  rewrite split_on_join by done.
  by apply (is_package_weaken _ n).
Qed.

(** Where no directory holds an [__init__.py], a finder that reports only
    package directories reports nothing. *)
Lemma finds_nothing fp fs :
  Tree.finds_only_packages fp →
  existsb Tree.holds_package fs = false →
  fp fs = [].
Proof.
  intros Hfp Hnone.
  destruct (fp fs) as [|p ps] eqn:Hres; [done|].
  assert (Hp : p ∈ fp fs) by (rewrite Hres; left).
  apply Hfp, is_package_holds in Hp. congruence.
Qed.

(** ** Version strings *)

(** A string accepted as a version consists of three numeric identifiers
    joined by dots. *)
Lemma semver_parse_shape s x y z :
  Semver.parse s = Some (x, y, z) →
  ∃ a b c, s = a +:+ "." +:+ b +:+ "." +:+ c ∧
           Semver.numeric a = Some x ∧ Semver.numeric b = Some y ∧
           Semver.numeric c = Some z.
Proof.
  unfold Semver.parse. intros Hp.
  pose proof (join_split_on "." s) as Hjoin.
  destruct (Str.split_on "." s) as [|a [|b [|c [|? ?]]]]; try done.
  destruct (Semver.numeric a) as [x'|] eqn:Ha; [|done].
  destruct (Semver.numeric b) as [y'|] eqn:Hb; [|done].
  destruct (Semver.numeric c) as [z'|] eqn:Hc; [|done].
  simpl in Hp. simplify_eq. by exists a, b, c.
Qed.

(** ** The definitions on small inputs *)

Example split_version : Str.split_on "." "0.1.0" = ["0"; "1"; "0"].
Proof. reflexivity. Qed.

Example semver_accepts : Semver.parse "10.21.305" = Some (10, 21, 305)%N.
Proof. reflexivity. Qed.

Example semver_two_components : Semver.parse "0.1" = None.
Proof. reflexivity. Qed.

Example semver_leading_zero : Semver.parse "0.01.0" = None.
Proof. reflexivity. Qed.

Example semver_not_a_number : Semver.parse "0.1.x" = None.
Proof. reflexivity. Qed.

Example requirement_range :
  Requirement.parse "numpy>=1.26.1,<2"
  = Some (Requirement.Req "numpy"
            [(Requirement.AtLeast, "1.26.1"); (Requirement.Below, "2")]).
Proof. reflexivity. Qed.

Example requirement_range_not_minimum_only :
  (r ← Requirement.parse "numpy>=1.26.1,<2";
   Some (Requirement.has_minimum r, Requirement.minimum_only r))
  = Some (true, false).
Proof. reflexivity. Qed.

Example requirement_pin_has_no_minimum :
  Requirement.has_minimum <$> Requirement.parse "kaggle==1.5.16" = Some false.
Proof. reflexivity. Qed.

Example requirement_bare :
  Requirement.parse "Pillow" = Some (Requirement.Req "Pillow" []).
Proof. reflexivity. Qed.

Example requirement_no_version : Requirement.parse "Pillow>=" = None.
Proof. reflexivity. Qed.

Example category_of_topic :
  category "Topic :: Scientific/Engineering :: Artificial Intelligence" = "Topic".
Proof. reflexivity. Qed.

Example find_nested :
  Tree.find
    [ File "setup.py";
      Dir "agri" [File "__init__.py"; Dir "rl" [File "__init__.py"]; Dir "data" []];
      Dir "docs" [File "index.md"];
      Dir "v1.0" [File "__init__.py"] ]
  = ["agri"; "agri.rl"].
Proof. reflexivity. Qed.

Example find_repository : Tree.find repository = [].
Proof. reflexivity. Qed.

(** Without the import the call of [setup] raises. *)
Example setup_unbound (E : env) :
  (f ← load_name "setup"; call E f ∅) initial = Raised (NameError "setup").
Proof. reflexivity. Qed.

Example import_misspelt :
  import_from "setuptools" ["setup"; "find_package"] initial
  = Raised (ImportError "setuptools" "find_package").
Proof. reflexivity. Qed.

Example call_of_a_string (E : env) :
  (store_name "setup" (VStr "x") ;; f ← load_name "setup"; call E f ∅) initial
  = Raised (TypeError "'str' object is not callable").
Proof. reflexivity. Qed.

(** A run with a command that ends well returns; one whose command
    raises ends with that exception. *)
Example run_with_command (E : env) :
  ∃ s, run E (CommandLine ["setup.py"; "sdist"] None) = Returned tt s.
Proof. by eexists. Qed.

Example run_with_failing_command (E : env) :
  run E (CommandLine ["setup.py"; "bdist_wheel"] (Some (SystemExit 1)))
  = Raised (SystemExit 1).
Proof. reflexivity. Qed.

(** ** The claims about the descriptor *)

(** C1: evaluating setup.py makes exactly one call to [setup]; its
    arguments other than [packages] are the same literals in every
    environment; the module binds the two imported names and defines no
    name of its own; the repository holds no file but the script. *)
Theorem setup_py_single_setup_call :
  ∃ metadata : gmap string value, ∀ E : env,
    ∃ s kw,
      evaluate E = Returned tt s ∧
      setup_calls s = [kw] ∧
      trace s = [Call FindPackages ∅; Call Setup kw] ∧
      delete "packages" kw = metadata ∧
      kw !! "packages" = Some (VList (find_packages E (cwd E))) ∧
      dom (globals s) = {["setup"; "find_packages"]} ∧
      defined_names s = ∅ ∧
      repository = [File "setup.py"].
Proof.
  exists (delete "packages" (list_to_map (setup_kwargs VNone))).
  intros E. eexists _, _. split; [apply evaluate_eq|].
  split; [reflexivity|]. split; [reflexivity|].
  split; [apply setup_kwargs_literals|].
  split; [reflexivity|].
  split; [|split; [by apply final_globals_defines_nothing|reflexivity]].
  unfold final_globals; simpl.
  rewrite !dom_insert_L, dom_empty_L. set_solver.
Qed.

(** C2: the descriptor declares the name "space-agriculture-rl" and the
    version "0.1.0", and carries the author and contact fields. *)
Theorem declares_name_and_version (E : env) :
  ∃ kw, declared E = Some kw ∧
        str_field kw "name" = Some "space-agriculture-rl" ∧
        str_field kw "version" = Some "0.1.0" ∧
        is_Some (str_field kw "author") ∧
        is_Some (str_field kw "author_email") ∧
        is_Some (str_field kw "url").
Proof.
  eexists. split; [apply declared_eq|].
  repeat split; by eexists.
Qed.

(** C3: [install_requires] has exactly seven entries, for streamlit,
    pandas, numpy, matplotlib, tensorflow, kaggle and Pillow in this
    order, and each entry has a [>=] clause. *)
Theorem seven_dependencies_with_minimum (E : env) :
  ∃ kw deps reqs,
    declared E = Some kw ∧
    list_field kw "install_requires" = Some deps ∧
    length deps = 7 ∧
    mapM Requirement.parse deps = Some reqs ∧
    Requirement.project <$> reqs
    = ["streamlit"; "pandas"; "numpy"; "matplotlib"; "tensorflow"; "kaggle"; "Pillow"] ∧
    Forall (fun r => Requirement.has_minimum r = true) reqs.
Proof.
  eexists _, _, _. split; [apply declared_eq|].
  split; [reflexivity|]. split; [reflexivity|].
  split; [vm_compute; reflexivity|]. split; [reflexivity|].
  repeat constructor.
Qed.

(** C4: the declared version is three numeric identifiers joined by
    dots, and parses as MAJOR.MINOR.PATCH = 0.1.0. *)
Theorem version_is_semantic (E : env) :
  ∃ kw v, declared E = Some kw ∧
          str_field kw "version" = Some v ∧
          Semver.parse v = Some (0, 1, 0)%N ∧
          ∃ a b c, v = a +:+ "." +:+ b +:+ "." +:+ c ∧
                   Semver.numeric a = Some 0%N ∧
                   Semver.numeric b = Some 1%N ∧
                   Semver.numeric c = Some 0%N.
Proof.
  eexists _, _. split; [apply declared_eq|].
  split; [reflexivity|].
  assert (Hp : Semver.parse "0.1.0" = Some (0, 1, 0)%N) by reflexivity.
  split; [exact Hp|]. by apply semver_parse_shape.
Qed.

(** C5: [install_requires] is not empty. *)
Theorem dependencies_nonempty (E : env) :
  ∃ kw deps, declared E = Some kw ∧
             list_field kw "install_requires" = Some deps ∧
             deps ≠ [].
Proof.
  eexists _, _. split; [apply declared_eq|]. by split.
Qed.

(** C6: the classifiers are four entries whose categories are
    Development Status, Intended Audience, Programming Language and
    Topic. *)
Theorem classifier_categories (E : env) :
  ∃ kw cls, declared E = Some kw ∧
            list_field kw "classifiers" = Some cls ∧
            category <$> cls
            = ["Development Status"; "Intended Audience";
               "Programming Language"; "Topic"].
Proof.
  eexists _, _. split; [apply declared_eq|]. by split.
Qed.



(** C8: run in a directory where no directory holds an [__init__.py], as
    in this repository, with a [find_packages] that reports package
    directories only, the script declares an empty [packages] list, and
    the descriptor names no module to install. *)
Theorem no_packages_declared (E : env) :
  Tree.finds_only_packages (find_packages E) →
  existsb Tree.holds_package (cwd E) = false →
  ∃ kw, declared E = Some kw ∧
        list_field kw "packages" = Some [] ∧
        installed_modules kw = [].
Proof.
  intros Hfp Hnone. eexists. split; [apply declared_eq|].
  unfold installed_modules, list_field.
  change ((list_to_map (setup_kwargs ?p) : gmap string value) !! "packages")
    with (Some p).
  change ((list_to_map (setup_kwargs ?p) : gmap string value) !! "py_modules")
    with (@None value).
  by rewrite (finds_nothing _ _ Hfp Hnone).
Qed.

Lemma no_packages_declared_witness :
  Tree.finds_only_packages (find_packages (Env Tree.find repository)) ∧
  existsb Tree.holds_package (cwd (Env Tree.find repository)) = false ∧
  ∃ kw, declared (Env Tree.find repository) = Some kw ∧
        list_field kw "packages" = Some [] ∧
        installed_modules kw = [].
Proof.
  split; [exact find_finds_only_packages|].
  split; [reflexivity|].
  apply (no_packages_declared (Env Tree.find repository)).
  - exact find_finds_only_packages.
  - reflexivity.
Defined.

(** C9: every entry of [install_requires] is a lower bound only: [>=]
    occurs exactly once in it, [<], [==] and [~=] occur nowhere in it, and
    it parses as a requirement with the single clause [>=]. *)
Theorem dependencies_lower_bound_only (E : env) :
  ∃ kw deps,
    declared E = Some kw ∧
    list_field kw "install_requires" = Some deps ∧
    Forall (fun d =>
              Str.count_sub ">=" d = 1 ∧
              (∀ a b, d ≠ a +:+ "<" +:+ b) ∧
              (∀ a b, d ≠ a +:+ "==" +:+ b) ∧
              (∀ a b, d ≠ a +:+ "~=" +:+ b) ∧
              ∃ r, Requirement.parse d = Some r ∧
                   Requirement.minimum_only r = true) deps.
Proof.
  eexists _, _. split; [apply declared_eq|]. split; [reflexivity|].
  repeat (apply Forall_cons; split;
          [split_and!;
           [reflexivity
           |intros a b; apply count_sub_none; reflexivity ..
           |eexists; split; reflexivity]|]).
  constructor.
Qed.

(** C10: the author is "Your Name", the contact address is
    "your.email@example.com", and the url has the segment
    "yourusername". *)
Theorem contact_fields_are_placeholders (E : env) :
  ∃ kw url, declared E = Some kw ∧
            str_field kw "author" = Some "Your Name" ∧
            str_field kw "author_email" = Some "your.email@example.com" ∧
            str_field kw "url" = Some url ∧
            ∃ a b, url = a +:+ "/yourusername/" +:+ b.
Proof.
  eexists _, _. split; [apply declared_eq|].
  do 3 (split; [reflexivity|]).
  by exists "https://github.com", "space-agriculture-rl".
Qed.

(** ** Further properties of the descriptor *)

Lemma setup_kwargs_keys (p : value) :
  (setup_kwargs p).*1
  = [ "name"; "version"; "packages"; "include_package_data";
      "install_requires"; "author"; "author_email"; "description";
      "keywords"; "url"; "classifiers" ].
Proof. reflexivity. Qed.

Lemma setup_kwargs_keys_NoDup (p : value) : NoDup (setup_kwargs p).*1.
Proof.
  rewrite setup_kwargs_keys.
  repeat (apply NoDup_cons; split; [set_unfold; intros Hin; by destruct_or!|]).
  apply NoDup_nil; done.
Qed.

(** X1: in every environment the call to [setup] passes exactly the eleven
    keyword arguments name, version, packages, include_package_data,
    install_requires, author, author_email, description, keywords, url
    and classifiers, and no other: in particular no py_modules,
    python_requires, entry_points or scripts. *)
Theorem setup_keywords_exact (E : env) :
  ∃ kw, declared E = Some kw ∧
        (∀ k, is_Some (kw !! k) ↔
              k ∈ [ "name"; "version"; "packages"; "include_package_data";
                    "install_requires"; "author"; "author_email";
                    "description"; "keywords"; "url"; "classifiers" ]) ∧
        size kw = 11 ∧
        kw !! "py_modules" = None ∧
        kw !! "python_requires" = None ∧
        kw !! "entry_points" = None ∧
        kw !! "scripts" = None.
Proof.
  eexists. split; [apply declared_eq|].
  set (p := VList (find_packages E (cwd E))).
  assert (Hdom : ∀ k, is_Some ((list_to_map (setup_kwargs p) : gmap string value) !! k)
                      ↔ k ∈ (setup_kwargs p).*1).
  { intros k. rewrite <- elem_of_dom, dom_list_to_map_L. set_solver. }
  assert (Hnone : ∀ k, k ∉ (setup_kwargs p).*1 →
                       (list_to_map (setup_kwargs p) : gmap string value) !! k = None).
  { intros k Hk. apply eq_None_not_Some. by rewrite Hdom. }
  split; [exact Hdom|]. split.
  - rewrite <- size_dom, dom_list_to_map_L, size_list_to_set
      by apply setup_kwargs_keys_NoDup.
    reflexivity.
  - split_and!; apply Hnone; rewrite setup_kwargs_keys;
      set_unfold; intros Hin; by destruct_or!.
Qed.

(** X2: whatever list [find_packages()] returns is handed to [setup]
    unchanged as [packages], and, no py_modules being passed, it is the
    whole list of modules the descriptor names for installation. *)
Theorem packages_are_the_found_packages (E : env) :
  ∃ kw, declared E = Some kw ∧
        list_field kw "packages" = Some (find_packages E (cwd E)) ∧
        installed_modules kw = find_packages E (cwd E).
Proof.
  eexists. split; [apply declared_eq|]. split; [reflexivity|].
  unfold installed_modules, list_field.
  change ((list_to_map (setup_kwargs ?p) : gmap string value) !! "packages")
    with (Some p).
  change ((list_to_map (setup_kwargs ?p) : gmap string value) !! "py_modules")
    with (@None value).
  simpl. apply app_nil_r.
Qed.

(** X4: the descriptor depends on the environment through the list of
    found packages and nothing else: two evaluations declare the same
    descriptor exactly when [find_packages()] returned the same list. *)
Theorem descriptor_determined_by_found_packages (E1 E2 : env) :
  declared E1 = declared E2 ↔
  find_packages E1 (cwd E1) = find_packages E2 (cwd E2).
Proof.
  rewrite !declared_eq. split.
  - intros Heq. apply (inj Some) in Heq.
    assert (Hpk : Some (VList (find_packages E1 (cwd E1)))
                  = Some (VList (find_packages E2 (cwd E2)))).
    { change ((list_to_map (setup_kwargs (VList (find_packages E1 (cwd E1))))
                : gmap string value) !! "packages"
              = (list_to_map (setup_kwargs (VList (find_packages E2 (cwd E2))))
                  : gmap string value) !! "packages").
      by rewrite Heq. }
    by simplify_eq.
  - by intros ->.
Qed.

(** X5: every entry of [install_requires] bounds its project from below
    by a full release number: the version after [>=] has the three
    numeric components MAJOR.MINOR.PATCH. *)
Theorem lower_bounds_are_release_triples (E : env) :
  ∃ kw deps,
    declared E = Some kw ∧
    list_field kw "install_requires" = Some deps ∧
    Forall (fun d =>
              ∃ name v triple,
                Requirement.parse d
                = Some (Requirement.Req name [(Requirement.AtLeast, v)]) ∧
                Semver.parse v = Some triple) deps.
Proof.
  eexists _, _. split; [apply declared_eq|]. split; [reflexivity|].
  repeat (apply Forall_cons; split;
          [eexists _, _, _; split; reflexivity|]).
  constructor.
Qed.

(** X6: in every environment each keyword argument has a usable value:
    none is [None] or the empty string; name, version, author,
    author_email, description, keywords and url are strings;
    include_package_data is [True]; packages, install_requires and
    classifiers are lists. *)
Theorem arguments_are_well_formed (E : env) :
  ∃ kw, declared E = Some kw ∧
        (∀ k v, kw !! k = Some v → v ≠ VNone ∧ v ≠ VStr "") ∧
        Forall (fun k => is_Some (str_field kw k))
          [ "name"; "version"; "author"; "author_email"; "description";
            "keywords"; "url" ] ∧
        kw !! "include_package_data" = Some (VBool true) ∧
        Forall (fun k => is_Some (list_field kw k))
          [ "packages"; "install_requires"; "classifiers" ].
Proof.
  eexists. split; [apply declared_eq|]. split_and!.
  - intros k v Hkv%elem_of_list_to_map_2.
    unfold setup_kwargs in Hkv. set_unfold.
    destruct_or!; simplify_eq; done.
  - repeat (apply Forall_cons; split; [by eexists|]). constructor.
  - reflexivity.
  - repeat (apply Forall_cons; split; [by eexists|]). constructor.
Qed.
